(** * PKI action model (ui/app/models/pki/action.js)

    A shallow embedding of the [PkiActionModel] record, its [validations]
    table and its capability getters, with the properties the
    specification states about them. *)

From stdpp Require Import base decidable option list strings gmap.
From Stdlib Require Import ZArith.

Open Scope string_scope.

(** ** JavaScript values held by the record's properties *)

Inductive Value : Type :=
| JUndefined
| JNull
| JBool (b : bool)
| JNum (n : Z)
| JStr (s : string).

#[global] Instance Value_eq_dec : EqDecision Value.
Proof. solve_decision. Defined.

(** [a === b] on primitive values: same type and same value. *)
Definition strict_eq (a b : Value) : bool := bool_decide (a = b).

(** ** Attribute declarations

    One entry per [@attr] of the class, in declaration order: the transform
    name (first argument of [attr], when given) and the options
    [defaultValue] and [possibleValues].  Display-only options (labels,
    help texts, edit types, masking) play no part below. *)

Record AttrOptions : Type := mkAttr {
  attr_type : option string;
  defaultValue : option Value;
  possibleValues : list string
}.

Definition plain (t : option string) : AttrOptions := mkAttr t None [].

Definition attributes : list (string * AttrOptions) :=
  [ ("pemBundle", plain (Some "string"));
    ("parsedCertificate", plain None);
    ("importedIssuers", plain None);
    ("importedKeys", plain None);
    ("mapping", plain None);
    ("certificate", plain (Some "string"));
    ("serialNumber", plain None);
    ("issuingCa", plain (Some "string"));
    ("type", mkAttr (Some "string") None ["exported"; "internal"; "existing"; "kms"]);
    ("issuerName", plain (Some "string"));
    ("keyName", plain (Some "string"));
    ("keyRef", mkAttr (Some "string") (Some (JStr "default")) []);
    ("commonName", plain (Some "string"));
    ("altNames", plain (Some "string"));
    ("ipSans", plain (Some "string"));
    ("uriSans", plain (Some "string"));
    ("otherSans", plain (Some "string"));
    ("format", mkAttr (Some "string") (Some (JStr "pem")) ["pem"; "der"; "pem_bundle"]);
    ("privateKeyFormat", mkAttr (Some "string") (Some (JStr "der")) ["der"; "pkcs8"]);
    ("keyType", mkAttr (Some "string") (Some (JStr "rsa")) ["rsa"; "ed25519"; "ec"]);
    ("keyBits", mkAttr (Some "string") (Some (JStr "0")) []);
    ("maxPathLength", mkAttr (Some "number") (Some (JNum (-1))) []);
    ("excludeCnFromSans", mkAttr (Some "boolean") (Some (JBool false)) []);
    ("permittedDnsDomains", plain (Some "string"));
    ("ou", plain (Some "string"));
    ("organization", plain None);
    ("country", plain None);
    ("locality", plain None);
    ("province", plain None);
    ("streetAddress", plain None);
    ("postalCode", plain None);
    ("subjectSerialNumber", plain (Some "string"));
    ("addBasicConstraints", plain (Some "boolean"));
    ("notBeforeDuration", mkAttr None (Some (JStr "30s")) []);
    ("managedKeyName", plain (Some "string"));
    ("managedKeyId", plain (Some "string"));
    ("customTtl", plain None);
    ("ttl", plain (Some "string"));
    ("notAfter", plain (Some "date"));
    ("issuerId", plain (Some "string"));
    ("csr", plain (Some "string"));
    ("caChain", plain None);
    ("keyId", plain (Some "string"));
    ("privateKey", plain (Some "string"));
    ("privateKeyType", plain (Some "string")) ].

Fixpoint assoc {A : Type} (key : string) (l : list (string * A)) : option A :=
  match l with
  | [] => None
  | (k, a) :: rest => if String.eqb k key then Some a else assoc key rest
  end.

Definition attr_options (key : string) : option AttrOptions := assoc key attributes.

(** The value an attribute reads as while nothing has been assigned to it:
    its declared [defaultValue], and [undefined] when none is declared. *)
Definition attr_default (key : string) : Value :=
  match attr_options key with
  | Some o => default JUndefined (defaultValue o)
  | None => JUndefined
  end.

(** ** The record *)

(** A path template written with [apiPath]: literal pieces and the names of
    the properties whose values are spliced between them. *)
Inductive Chunk : Type :=
| Lit (s : string)
| Key (k : string).

#[global] Instance Chunk_eq_dec : EqDecision Chunk.
Proof. solve_decision. Defined.

(** What the permissions oracle holds for one path: the capabilities record
    once the lookup has resolved, nothing while it is pending or after it
    has failed. *)
Inductive Capabilities : Type :=
| Resolved (record : gmap string Value)
| Pending
| Rejected.

(** [props] holds the values assigned so far to the tracked property
    [actionType] and to the attributes; [currentPath] is
    [secretMountPath.currentPath]; [oracle] is the injected permissions
    lookup, keyed by a path template and the values spliced into it. *)
Record PkiActionModel : Type := mkModel {
  props : gmap string Value;
  currentPath : Value;
  oracle : list Chunk -> list Value -> Capabilities
}.

(** [createRecord]: nothing assigned yet. *)
Definition createRecord (path : Value)
    (o : list Chunk -> list Value -> Capabilities) : PkiActionModel :=
  mkModel ∅ path o.

(** [get backend() { return this.secretMountPath.currentPath; }] *)
Definition backend (m : PkiActionModel) : Value := currentPath m.

(** Reading [model.key]: the getter [backend], else the assigned value, else
    the attribute's default. *)
Definition get (m : PkiActionModel) (key : string) : Value :=
  if String.eqb key "backend" then backend m
  else match props m !! key with
       | Some v => v
       | None => attr_default key
       end.

(** Assigning [model.key = v]. *)
Definition set (key : string) (v : Value) (m : PkiActionModel) : PkiActionModel :=
  mkModel (<[key := v]> (props m)) (currentPath m) (oracle m).

(** ** Code that runs against the record

    Validators receive the record itself, so they are written in a state
    monad over it; the ones of this file only read. *)

Definition M (A : Type) : Type := PkiActionModel -> A * PkiActionModel.

Definition ret {A : Type} (a : A) : M A := fun m => (a, m).

Definition bind {A B : Type} (c : M A) (k : A -> M B) : M B :=
  fun m => let (a, m') := c m in k a m'.

Notation "'let*' x ':=' c 'in' k" := (bind c (fun x => k))
  (at level 10, x name, c at level 100, k at level 200).

Definition read (key : string) : M Value := fun m => (get m key, m).

(** ** The [validations] table *)

Inductive Check : Type :=
| Presence                      (* { type: 'presence', ... } *)
| Validator (validator : M bool) (* { validator(model) {...}, ... } *).

Record Rule : Type := mkRule { check : Check; message : string }.

Definition issuerName_validator : M bool :=
  let reserved : M bool :=
    let* issuerName := read "issuerName" in
    if strict_eq issuerName (JStr "default") then ret false else ret true in
  let* actionType := read "actionType" in
  if strict_eq actionType (JStr "generate-root") then reserved
  else
    let* actionType' := read "actionType" in
    if strict_eq actionType' (JStr "rotate-root") then reserved
    else ret true.

Definition keyName_validator : M bool :=
  let* keyName := read "keyName" in
  if strict_eq keyName (JStr "default") then ret false else ret true.

Definition issuerName_message : string :=
  "Issuer name must be unique across all issuers and not be the reserved value 'default'.".

Definition keyName_message : string :=
  "Key name cannot be the reserved value 'default'".

Definition validations : list (string * list Rule) :=
  [ ("type", [mkRule Presence "Type is required."]);
    ("commonName", [mkRule Presence "Common name is required."]);
    ("issuerName", [mkRule (Validator issuerName_validator) issuerName_message]);
    ("keyName", [mkRule (Validator keyName_validator) keyName_message]) ].

(** ** The validation evaluator *)

(** Modelled from the spec: the built-in validator that the rule type
    ['presence'] names; it is looked up by [withModelValidations] and is
    defined outside models/pki/action.js.  The specification's rule is that
    the field fails when it is absent or empty. *)
Definition presence (v : Value) : bool :=
  match v with
  | JUndefined | JNull => false
  | JStr s => negb (String.eqb s "")
  | _ => true
  end.

Inductive ErrorKind : Type := MissingRequiredField | ReservedValue.

#[global] Instance ErrorKind_eq_dec : EqDecision ErrorKind.
Proof. solve_decision. Defined.

Record Failure : Type := mkFailure {
  field : string;
  kind : ErrorKind;
  text : string
}.

#[global] Instance Failure_eq_dec : EqDecision Failure.
Proof. solve_decision. Defined.

Record Outcome : Type := mkOutcome {
  isValid : bool;
  failures : list Failure
}.

(** Modelled from the spec: the error taxonomy.  A failed presence rule is a
    missing required field; a failed validator of the table is a reserved
    value. *)
Definition kind_of (c : Check) : ErrorKind :=
  match c with
  | Presence => MissingRequiredField
  | Validator _ => ReservedValue
  end.

Definition run_rule (key : string) (r : Rule) : M bool :=
  match check r with
  | Presence => let* v := read key in ret (presence v)
  | Validator validator => validator
  end.

Definition record_failure (key : string) (r : Rule) (acc : Outcome) : Outcome :=
  mkOutcome false (failures acc ++ [mkFailure key (kind_of (check r)) (message r)]).

Fixpoint run_rules (key : string) (rules : list Rule) (acc : Outcome) : M Outcome :=
  match rules with
  | [] => ret acc
  | r :: rest =>
      let* passed := run_rule key r in
      run_rules key rest (if passed then acc else record_failure key r acc)
  end.

Fixpoint run_table (table : list (string * list Rule)) (acc : Outcome) : M Outcome :=
  match table with
  | [] => ret acc
  | (key, rules) :: rest =>
      let* acc' := run_rules key rules acc in
      run_table rest acc'
  end.

(** Modelled from the spec: the evaluator that [withModelValidations]
    (vault/decorators/model-validations, defined outside
    models/pki/action.js) attaches to the class.  Every field of the table
    is evaluated on its own, each failed rule is reported as data under its
    field, and the record is valid when no rule failed. *)
Definition validate : M Outcome :=
  run_table validations (mkOutcome true []).

Definition failures_of (m : PkiActionModel) : list Failure :=
  failures (fst (validate m)).

Definition failures_for (key : string) (fs : list Failure) : list Failure :=
  filter (fun f => field f = key) fs.

(** ** Capabilities *)

(** Modelled from the spec: [lazyCapabilities] (vault/macros/lazy-capabilities,
    defined outside models/pki/action.js) delegates to the permissions
    oracle, with the path template and the values of the properties it
    names. *)
Definition lazyCapabilities (template : list Chunk) (keys : list string)
    (m : PkiActionModel) : Capabilities :=
  oracle m template (map (get m) keys).

(** Modelled from the spec: reading a property off the oracle's answer gives
    the resolved record's property, and [undefined] for a missing property,
    a pending lookup or a failed one; it never throws. *)
Definition proxy_get (c : Capabilities) (prop : string) : Value :=
  match c with
  | Resolved record => default JUndefined (record !! prop)
  | Pending | Rejected => JUndefined
  end.

Definition importBundlePath : PkiActionModel -> Capabilities :=
  lazyCapabilities [Key "backend"; Lit "/issuers/import/bundle"] ["backend"].

Definition generateIssuerRootPath : PkiActionModel -> Capabilities :=
  lazyCapabilities [Key "backend"; Lit "/issuers/generate/root/"; Key "type"]
                   ["backend"; "type"].

Definition generateIssuerCsrPath : PkiActionModel -> Capabilities :=
  lazyCapabilities [Key "backend"; Lit "/issuers/generate/intermediate/"; Key "type"]
                   ["backend"; "type"].

Definition crossSignPath : PkiActionModel -> Capabilities :=
  lazyCapabilities [Key "backend"; Lit "/issuers/cross-sign"] ["backend"].

Definition canImportBundle (m : PkiActionModel) : bool :=
  strict_eq (proxy_get (importBundlePath m) "canCreate") (JBool true).

Definition canGenerateIssuerRoot (m : PkiActionModel) : bool :=
  strict_eq (proxy_get (generateIssuerRootPath m) "canCreate") (JBool true).

Definition canGenerateIssuerIntermediate (m : PkiActionModel) : bool :=
  strict_eq (proxy_get (generateIssuerCsrPath m) "canCreate") (JBool true).

Definition canCrossSign (m : PkiActionModel) : bool :=
  strict_eq (proxy_get (crossSignPath m) "canCreate") (JBool true).

(** ** Predicates and records the statements are written with *)

Definition issuerName_reserved (m : PkiActionModel) : bool :=
  (strict_eq (get m "actionType") (JStr "generate-root")
   || strict_eq (get m "actionType") (JStr "rotate-root"))
  && strict_eq (get m "issuerName") (JStr "default").

Definition keyName_reserved (m : PkiActionModel) : bool :=
  strict_eq (get m "keyName") (JStr "default").

(** A computation that hands the record back as it received it. *)
Definition read_only {A : Type} (c : M A) : Prop := ∀ m, (c m).2 = m.

Definition rule_read_only (r : Rule) : Prop :=
  match check r with
  | Presence => True
  | Validator validator => read_only validator
  end.

(** The flag of an outcome says whether its list of failures is empty. *)
Definition coherent (o : Outcome) : Prop := isValid o = true ↔ failures o = [].

(** The four rules of the table, each contributing at most one failure, in
    the order of the table. *)
Definition type_failure : Failure :=
  mkFailure "type" MissingRequiredField "Type is required.".
Definition commonName_failure : Failure :=
  mkFailure "commonName" MissingRequiredField "Common name is required.".
Definition issuerName_failure : Failure :=
  mkFailure "issuerName" ReservedValue issuerName_message.
Definition keyName_failure : Failure :=
  mkFailure "keyName" ReservedValue keyName_message.

Definition when (b : bool) (f : Failure) : list Failure := if b then [f] else [].

(** Absent or empty, as the presence rule understands it. *)
Definition absent_or_empty (v : Value) : Prop :=
  v = JUndefined ∨ v = JNull ∨ v = JStr "".

(** ** Records used as concrete inputs *)

Definition no_answer : list Chunk -> list Value -> Capabilities := fun _ _ => Pending.

Definition fresh : PkiActionModel := createRecord (JStr "pki") no_answer.

Definition example_record (actionType : option Value) : PkiActionModel :=
  let filled :=
    set "keyName" (JStr "my-key")
      (set "issuerName" (JStr "my-issuer")
         (set "commonName" (JStr "example.com")
            (set "type" (JStr "internal") fresh))) in
  match actionType with
  | Some a => set "actionType" a filled
  | None => filled
  end.

(** An oracle that grants create on the import-bundle path and fails to
    resolve every other path. *)
Definition bundle_only : list Chunk -> list Value -> Capabilities :=
  fun template _ =>
    if bool_decide (template = [Key "backend"; Lit "/issuers/import/bundle"])
    then Resolved {[ "canCreate" := JBool true ]}
    else Rejected.

(** The oracle's answer reports [canCreate] strictly equal to [true]. *)
Definition reports_canCreate (c : Capabilities) : Prop :=
  ∃ record, c = Resolved record ∧ record !! "canCreate" = Some (JBool true).


(** The properties the rules of [validations] read. *)
Definition validated_reads : list string :=
  [ "type"; "commonName"; "issuerName"; "keyName"; "actionType" ].

(** The same record with another permissions oracle injected. *)
Definition with_oracle (o : list Chunk -> list Value -> Capabilities)
    (m : PkiActionModel) : PkiActionModel :=
  mkModel (props m) (currentPath m) o.

Definition answer (b : bool) : Capabilities :=
  Resolved {[ "canCreate" := JBool b ]}.

(** An oracle that answers each of the four path templates with its own
    [canCreate], and resolves nothing else. *)
Definition granting (bundle root intermediate cross : bool)
    : list Chunk -> list Value -> Capabilities :=
  fun template _ =>
    if bool_decide (template = [Key "backend"; Lit "/issuers/import/bundle"])
    then answer bundle
    else if bool_decide
              (template = [Key "backend"; Lit "/issuers/generate/root/"; Key "type"])
    then answer root
    else if bool_decide
              (template = [Key "backend"; Lit "/issuers/generate/intermediate/"; Key "type"])
    then answer intermediate
    else if bool_decide (template = [Key "backend"; Lit "/issuers/cross-sign"])
    then answer cross
    else Rejected.


(** * Properties *)

(** ** Reading properties *)

Lemma get_unset (m : PkiActionModel) (key : string) :
  key ≠ "backend" → props m !! key = None → get m key = attr_default key.
Proof.
  intros Hb Hk. unfold get. rewrite Hk.
  destruct (String.eqb_spec key "backend"); [contradiction | reflexivity].
Qed.

Lemma get_set_eq (m : PkiActionModel) (key : string) (v : Value) :
  key ≠ "backend" → get (set key v m) key = v.
Proof.
  intros Hb. unfold get, set; cbn [props].
  destruct (String.eqb_spec key "backend"); [contradiction |].
  by rewrite lookup_insert_eq.
Qed.

Lemma get_set_ne (m : PkiActionModel) (key key' : string) (v : Value) :
  key ≠ key' → get (set key v m) key' = get m key'.
Proof.
  intros Hne. unfold get, set, backend; cbn [props currentPath].
  by rewrite lookup_insert_ne.
Qed.

Lemma strict_eq_true (a b : Value) : strict_eq a b = true ↔ a = b.
Proof. unfold strict_eq. apply bool_decide_eq_true. Qed.

Lemma strict_eq_false (a b : Value) : strict_eq a b = false ↔ a ≠ b.
Proof. unfold strict_eq. apply bool_decide_eq_false. Qed.

(** ** What the validators of the table compute *)

Lemma issuerName_validator_run (m : PkiActionModel) :
  issuerName_validator m = (negb (issuerName_reserved m), m).
Proof.
  unfold issuerName_validator, issuerName_reserved, bind, read, ret.
  destruct (strict_eq (get m "actionType") (JStr "generate-root"));
    destruct (strict_eq (get m "actionType") (JStr "rotate-root"));
    destruct (strict_eq (get m "issuerName") (JStr "default")); reflexivity.
Qed.

Lemma keyName_validator_run (m : PkiActionModel) :
  keyName_validator m = (negb (keyName_reserved m), m).
Proof.
  unfold keyName_validator, keyName_reserved, bind, read, ret.
  destruct (strict_eq (get m "keyName") (JStr "default")); reflexivity.
Qed.

Lemma issuerName_reserved_true (m : PkiActionModel) :
  issuerName_reserved m = true ↔
  (get m "actionType" = JStr "generate-root" ∨ get m "actionType" = JStr "rotate-root")
  ∧ get m "issuerName" = JStr "default".
Proof.
  unfold issuerName_reserved.
  rewrite andb_true_iff, orb_true_iff, !strict_eq_true. reflexivity.
Qed.

Lemma keyName_reserved_true (m : PkiActionModel) :
  keyName_reserved m = true ↔ get m "keyName" = JStr "default".
Proof. unfold keyName_reserved. apply strict_eq_true. Qed.

(** ** The evaluator, rule by rule *)

Lemma run_rule_read_only (key : string) (r : Rule) :
  rule_read_only r → read_only (run_rule key r).
Proof.
  unfold rule_read_only, run_rule. destruct (check r); intros H m.
  - reflexivity.
  - apply H.
Qed.

Lemma run_rules_read_only (key : string) (rules : list Rule) :
  Forall rule_read_only rules → ∀ acc, read_only (run_rules key rules acc).
Proof.
  induction 1 as [| r rest Hr _ IH]; intros acc m; cbn [run_rules].
  - reflexivity.
  - unfold bind. pose proof (run_rule_read_only key r Hr m) as Hm.
    destruct (run_rule key r m) as [b m']. cbn in Hm. subst m'. apply IH.
Qed.

Lemma run_table_read_only (table : list (string * list Rule)) :
  Forall (fun entry => Forall rule_read_only entry.2) table →
  ∀ acc, read_only (run_table table acc).
Proof.
  induction 1 as [| [key rules] rest Hr _ IH]; intros acc m; cbn [run_table].
  - reflexivity.
  - unfold bind. pose proof (run_rules_read_only key rules Hr acc m) as Hm.
    destruct (run_rules key rules acc m) as [acc' m']. cbn in Hm. subst m'. apply IH.
Qed.

Lemma validations_read_only :
  Forall (fun entry : string * list Rule => Forall rule_read_only entry.2) validations.
Proof.
  unfold validations. repeat constructor; intros m; cbn [check].
  - by rewrite issuerName_validator_run.
  - by rewrite keyName_validator_run.
Qed.

Lemma record_failure_coherent (key : string) (r : Rule) (acc : Outcome) :
  coherent (record_failure key r acc).
Proof.
  unfold coherent, record_failure; cbn. split; [discriminate |].
  intros H. by apply app_eq_nil in H as [_ ?].
Qed.

Lemma run_rules_coherent (key : string) (rules : list Rule) :
  ∀ acc m, coherent acc → coherent (run_rules key rules acc m).1.
Proof.
  induction rules as [| r rest IH]; intros acc m Hacc; cbn [run_rules].
  - exact Hacc.
  - unfold bind. destruct (run_rule key r m) as [[] m'].
    + by apply IH.
    + apply IH, record_failure_coherent.
Qed.

Lemma run_table_coherent (table : list (string * list Rule)) :
  ∀ acc m, coherent acc → coherent (run_table table acc m).1.
Proof.
  induction table as [| [key rules] rest IH]; intros acc m Hacc; cbn [run_table].
  - exact Hacc.
  - unfold bind. pose proof (run_rules_coherent key rules acc m Hacc) as H.
    destruct (run_rules key rules acc m) as [acc' m']. by apply IH.
Qed.

Lemma failures_of_eq (m : PkiActionModel) :
  failures_of m =
    (when (negb (presence (get m "type"))) type_failure
     ++ when (negb (presence (get m "commonName"))) commonName_failure
     ++ when (issuerName_reserved m) issuerName_failure
     ++ when (keyName_reserved m) keyName_failure)%list.
Proof.
  unfold failures_of, validate, validations.
  cbn [run_table run_rules run_rule check]. unfold bind, read, ret.
  rewrite issuerName_validator_run. cbn beta iota.
  rewrite keyName_validator_run. cbn beta iota.
  destruct (presence (get m "type")), (presence (get m "commonName")),
    (issuerName_reserved m), (keyName_reserved m); reflexivity.
Qed.

Lemma elem_of_when (b : bool) (f g : Failure) :
  g ∈ when b f ↔ g = f ∧ b = true.
Proof.
  destruct b; unfold when.
  - rewrite list_elem_of_singleton. tauto.
  - rewrite elem_of_nil. split; [tauto | intros [_ ?]; discriminate].
Qed.

Lemma elem_of_failures_of (m : PkiActionModel) (f : Failure) :
  f ∈ failures_of m ↔
    (f = type_failure ∧ presence (get m "type") = false)
    ∨ (f = commonName_failure ∧ presence (get m "commonName") = false)
    ∨ (f = issuerName_failure ∧ issuerName_reserved m = true)
    ∨ (f = keyName_failure ∧ keyName_reserved m = true).
Proof.
  rewrite failures_of_eq, !elem_of_app, !elem_of_when, !negb_true_iff.
  reflexivity.
Qed.

Lemma failures_for_eq (key : string) (m : PkiActionModel) :
  failures_for key (failures_of m) =
    (when (negb (presence (get m "type")) && bool_decide ("type" = key)) type_failure
     ++ when (negb (presence (get m "commonName")) && bool_decide ("commonName" = key))
          commonName_failure
     ++ when (issuerName_reserved m && bool_decide ("issuerName" = key)) issuerName_failure
     ++ when (keyName_reserved m && bool_decide ("keyName" = key)) keyName_failure)%list.
Proof.
  rewrite failures_of_eq. unfold failures_for. rewrite !filter_app.
  assert (Hw : ∀ b f, filter (fun g => field g = key) (when b f)
                      = when (b && bool_decide (field f = key)) f).
  { intros [] f; unfold when; [| reflexivity].
    rewrite filter_cons, filter_nil. cbn [andb].
    destruct (decide (field f = key)) as [Heq | Hne].
    - by rewrite bool_decide_eq_true_2.
    - by rewrite bool_decide_eq_false_2. }
  rewrite !Hw. reflexivity.
Qed.

Ltac decide_keys :=
  repeat first
    [ rewrite bool_decide_eq_true_2 by reflexivity
    | rewrite bool_decide_eq_false_2 by (discriminate || congruence) ];
  rewrite ?andb_true_r, ?andb_false_r; cbn [when app];
  rewrite ?app_nil_r.

Lemma failures_for_type (m : PkiActionModel) :
  failures_for "type" (failures_of m)
  = when (negb (presence (get m "type"))) type_failure.
Proof. rewrite failures_for_eq. by decide_keys. Qed.

Lemma failures_for_commonName (m : PkiActionModel) :
  failures_for "commonName" (failures_of m)
  = when (negb (presence (get m "commonName"))) commonName_failure.
Proof. rewrite failures_for_eq. by decide_keys. Qed.

Lemma failures_for_issuerName (m : PkiActionModel) :
  failures_for "issuerName" (failures_of m)
  = when (issuerName_reserved m) issuerName_failure.
Proof. rewrite failures_for_eq. by decide_keys. Qed.

Lemma failures_for_keyName (m : PkiActionModel) :
  failures_for "keyName" (failures_of m)
  = when (keyName_reserved m) keyName_failure.
Proof. rewrite failures_for_eq. by decide_keys. Qed.

Lemma failures_for_other (key : string) (m : PkiActionModel) :
  key ∉ ["type"; "commonName"; "issuerName"; "keyName"] →
  failures_for key (failures_of m) = [].
Proof.
  intros Hkey. rewrite !not_elem_of_cons in Hkey.
  destruct Hkey as (? & ? & ? & ? & _).
  rewrite failures_for_eq. by decide_keys.
Qed.

Lemma presence_false (v : Value) : presence v = false ↔ absent_or_empty v.
Proof.
  unfold absent_or_empty. destruct v as [| | b | n | s]; cbn.
  - tauto.
  - tauto.
  - split; [discriminate | intros [? | [? | ?]]; discriminate].
  - split; [discriminate | intros [? | [? | ?]]; discriminate].
  - rewrite negb_false_iff. destruct (String.eqb_spec s "") as [-> | Hne].
    + tauto.
    + split; [discriminate | intros [? | [? | ?]]; congruence].
Qed.

(** ** The evaluator on concrete records *)

Example validate_fresh :
  validate fresh = (mkOutcome false [type_failure; commonName_failure], fresh).
Proof. reflexivity. Qed.

Example validate_reserved_names :
  failures_of (set "actionType" (JStr "rotate-root")
                 (set "keyName" (JStr "default")
                    (set "issuerName" (JStr "default") (example_record None))))
  = [issuerName_failure; keyName_failure].
Proof. reflexivity. Qed.

Example validate_import_bundle :
  failures_of (set "actionType" (JStr "import-bundle")
                 (set "issuerName" (JStr "default") (example_record None)))
  = [].
Proof. reflexivity. Qed.

Example validate_empty_commonName :
  failures_of (set "commonName" (JStr "") (example_record None))
  = [commonName_failure].
Proof. reflexivity. Qed.

(** * The claims *)

(** ** Validation *)

(** C1. The evaluator reports a ReservedValue failure for issuerName exactly
    when actionType is 'generate-root' or 'rotate-root' and issuerName is the
    string "default"; a record with actionType 'import-bundle' and issuerName
    "default" has no issuerName failure at all. *)
Theorem issuerName_reserved_value (m : PkiActionModel) :
  ((∃ f, f ∈ failures_of m ∧ field f = "issuerName" ∧ kind f = ReservedValue) ↔
   (get m "actionType" = JStr "generate-root" ∨ get m "actionType" = JStr "rotate-root")
   ∧ get m "issuerName" = JStr "default")
  ∧ (get m "actionType" = JStr "import-bundle" →
     get m "issuerName" = JStr "default" →
     failures_for "issuerName" (failures_of m) = []).
Proof.
  split.
  - rewrite <- issuerName_reserved_true. split.
    + intros (f & Hf & Hfield & _). apply elem_of_failures_of in Hf.
      destruct Hf as [[-> _] | [[-> _] | [[_ H] | [-> _]]]];
        solve [discriminate Hfield | exact H].
    + intros H. exists issuerName_failure. split; [| by split].
      apply elem_of_failures_of. auto.
  - intros Ha _. rewrite failures_for_issuerName.
    unfold issuerName_reserved. rewrite Ha. reflexivity.
Qed.

Lemma issuerName_reserved_value_witness :
  failures_for "issuerName"
    (failures_of (set "actionType" (JStr "import-bundle")
                    (set "issuerName" (JStr "default") fresh))) = [].
Proof.
  apply (proj2 (issuerName_reserved_value
                  (set "actionType" (JStr "import-bundle")
                     (set "issuerName" (JStr "default") fresh)))); reflexivity.
Defined.

(** C2. The evaluator reports a ReservedValue failure for keyName exactly
    when keyName is the string "default", whatever actionType is. *)
Theorem keyName_reserved_value (m : PkiActionModel) :
  ((∃ f, f ∈ failures_of m ∧ field f = "keyName" ∧ kind f = ReservedValue) ↔
   get m "keyName" = JStr "default")
  ∧ (∀ a : Value,
       failures_for "keyName" (failures_of (set "actionType" a m))
       = failures_for "keyName" (failures_of m)).
Proof.
  split.
  - rewrite <- keyName_reserved_true. split.
    + intros (f & Hf & Hfield & _). apply elem_of_failures_of in Hf.
      destruct Hf as [[-> _] | [[-> _] | [[-> _] | [_ H]]]];
        solve [discriminate Hfield | exact H].
    + intros H. exists keyName_failure. split; [| by split].
      apply elem_of_failures_of. auto.
  - intros a. rewrite !failures_for_keyName. unfold keyName_reserved.
    by rewrite get_set_ne.
Qed.

Lemma keyName_reserved_value_witness :
  ∃ f, f ∈ failures_of (set "keyName" (JStr "default")
                          (example_record (Some (JStr "import-bundle"))))
       ∧ field f = "keyName" ∧ kind f = ReservedValue.
Proof.
  apply (proj1 (keyName_reserved_value
                  (set "keyName" (JStr "default")
                     (example_record (Some (JStr "import-bundle")))))).
  reflexivity.
Defined.

(** C4. The evaluator reports a MissingRequiredField failure for type exactly
    when type is absent or empty, and one for commonName exactly when
    commonName is absent or empty; a field nothing was assigned to is
    absent. *)
Theorem required_fields (m : PkiActionModel) :
  ((∃ f, f ∈ failures_of m ∧ field f = "type" ∧ kind f = MissingRequiredField) ↔
   absent_or_empty (get m "type"))
  ∧ ((∃ f, f ∈ failures_of m ∧ field f = "commonName" ∧ kind f = MissingRequiredField) ↔
     absent_or_empty (get m "commonName"))
  ∧ (props m !! "type" = None → type_failure ∈ failures_of m)
  ∧ (props m !! "commonName" = None → commonName_failure ∈ failures_of m).
Proof.
  rewrite <- !presence_false. repeat split.
  - intros (f & Hf & Hfield & _). apply elem_of_failures_of in Hf.
    destruct Hf as [[_ H] | [[-> _] | [[-> _] | [-> _]]]];
      solve [discriminate Hfield | exact H].
  - intros H. exists type_failure. split; [| by split].
    apply elem_of_failures_of. auto.
  - intros (f & Hf & Hfield & _). apply elem_of_failures_of in Hf.
    destruct Hf as [[-> _] | [[_ H] | [[-> _] | [-> _]]]];
      solve [discriminate Hfield | exact H].
  - intros H. exists commonName_failure. split; [| by split].
    apply elem_of_failures_of. auto.
  - intros H. apply elem_of_failures_of. left. split; [reflexivity |].
    rewrite get_unset by (discriminate || exact H). reflexivity.
  - intros H. apply elem_of_failures_of. right; left. split; [reflexivity |].
    rewrite get_unset by (discriminate || exact H). reflexivity.
Qed.

Lemma required_fields_witness :
  type_failure ∈ failures_of (set "commonName" (JStr "example.com") fresh).
Proof.
  apply (required_fields (set "commonName" (JStr "example.com") fresh)).
  reflexivity.
Defined.

(** C7. Every failure the evaluator produces is a MissingRequiredField on
    type or commonName or a ReservedValue on issuerName or keyName.  No other
    field ever carries a failure, and assigning to another attribute does not
    change the outcome: e.g. format can be set to "xml", outside its declared
    values, without any failure. *)
Theorem failure_taxonomy (m : PkiActionModel) :
  (∀ f, f ∈ failures_of m →
     (field f = "type" ∧ kind f = MissingRequiredField)
     ∨ (field f = "commonName" ∧ kind f = MissingRequiredField)
     ∨ (field f = "issuerName" ∧ kind f = ReservedValue)
     ∨ (field f = "keyName" ∧ kind f = ReservedValue))
  ∧ (∀ key, key ∉ ["type"; "commonName"; "issuerName"; "keyName"] →
       failures_for key (failures_of m) = [])
  ∧ (∀ key v,
       key ∉ ["type"; "commonName"; "issuerName"; "keyName"; "actionType"] →
       failures_of (set key v m) = failures_of m)
  ∧ (possibleValues <$> attr_options "format" = Some ["pem"; "der"; "pem_bundle"]
     ∧ failures_of (set "format" (JStr "xml") m) = failures_of m
     ∧ failures_for "format" (failures_of (set "format" (JStr "xml") m)) = []).
Proof.
  assert (Hframe : ∀ key v,
    key ∉ ["type"; "commonName"; "issuerName"; "keyName"; "actionType"] →
    failures_of (set key v m) = failures_of m).
  { intros key v Hkey. rewrite !not_elem_of_cons in Hkey.
    destruct Hkey as (? & ? & ? & ? & ? & _).
    rewrite !failures_of_eq. unfold issuerName_reserved, keyName_reserved.
    by rewrite !get_set_ne. }
  repeat split.
  - intros f Hf. apply elem_of_failures_of in Hf.
    destruct Hf as [[-> _] | [[-> _] | [[-> _] | [-> _]]]]; cbn; tauto.
  - intros key. apply failures_for_other.
  - exact Hframe.
  - apply Hframe. rewrite !not_elem_of_cons, elem_of_nil.
    repeat split; (discriminate || tauto).
  - apply failures_for_other. rewrite !not_elem_of_cons, elem_of_nil.
    repeat split; (discriminate || tauto).
Qed.

Lemma failure_taxonomy_witness :
  (field type_failure = "type" ∧ kind type_failure = MissingRequiredField)
  ∨ (field type_failure = "commonName" ∧ kind type_failure = MissingRequiredField)
  ∨ (field type_failure = "issuerName" ∧ kind type_failure = ReservedValue)
  ∨ (field type_failure = "keyName" ∧ kind type_failure = ReservedValue).
Proof.
  apply (proj1 (failure_taxonomy (set "format" (JStr "xml") fresh)) type_failure).
  vm_compute. constructor.
Defined.

(** C8. A record with type "internal", commonName "example.com", issuerName
    "my-issuer" and keyName "my-key" validates with no failure, whatever
    actionType is (assigned to any value, or left unassigned). *)
Theorem example_record_valid (m : PkiActionModel) :
  (get m "type" = JStr "internal" →
   get m "commonName" = JStr "example.com" →
   get m "issuerName" = JStr "my-issuer" →
   get m "keyName" = JStr "my-key" →
   failures_of m = [] ∧ isValid (validate m).1 = true)
  ∧ (∀ actionType : option Value,
       failures_of (example_record actionType) = []
       ∧ isValid (validate (example_record actionType)).1 = true).
Proof.
  assert (Hgen : ∀ r : PkiActionModel,
    get r "type" = JStr "internal" →
    get r "commonName" = JStr "example.com" →
    get r "issuerName" = JStr "my-issuer" →
    get r "keyName" = JStr "my-key" →
    failures_of r = [] ∧ isValid (validate r).1 = true).
  { intros r Ht Hc Hi Hk.
    assert (Hnil : failures_of r = []).
    { rewrite failures_of_eq. unfold issuerName_reserved, keyName_reserved.
      rewrite Ht, Hc, Hi, Hk. cbn. by rewrite andb_false_r. }
    split; [exact Hnil |].
    apply (run_table_coherent validations (mkOutcome true []) r); [done |].
    exact Hnil. }
  split; [apply Hgen |].
  intros [a |]; apply Hgen; unfold example_record;
    rewrite ?(get_set_ne _ "actionType") by discriminate; reflexivity.
Qed.

Lemma example_record_valid_witness :
  failures_of (example_record (Some (JStr "generate-root"))) = []
  ∧ isValid (validate (example_record (Some (JStr "generate-root")))).1 = true.
Proof.
  apply (proj1 (example_record_valid (example_record (Some (JStr "generate-root")))));
    reflexivity.
Defined.

(** C9. Running the evaluator leaves the record exactly as it was, and the
    record is valid exactly when the evaluator produced no failure. *)
Theorem validate_side_effect_free (m : PkiActionModel) :
  (validate m).2 = m
  ∧ (isValid (validate m).1 = true ↔ failures_of m = []).
Proof.
  split.
  - apply (run_table_read_only validations validations_read_only).
  - apply (run_table_coherent validations (mkOutcome true []) m). done.
Qed.

Lemma validate_side_effect_free_witness :
  isValid (validate (example_record None)).1 = true.
Proof.
  apply (proj2 (validate_side_effect_free (example_record None))).
  reflexivity.
Defined.

(** C10. The reserved-value comparison is exact: a keyName other than the
    string "default" (unassigned, empty, or "Default") gives no keyName
    failure, and an issuerName other than "default" gives no issuerName
    failure, also when actionType is 'generate-root' or 'rotate-root'. *)
Theorem reserved_value_exact (m : PkiActionModel) :
  (get m "keyName" ≠ JStr "default" → failures_for "keyName" (failures_of m) = [])
  ∧ (get m "issuerName" ≠ JStr "default" →
     failures_for "issuerName" (failures_of m) = [])
  ∧ (props m !! "keyName" = None → failures_for "keyName" (failures_of m) = [])
  ∧ (props m !! "issuerName" = None → failures_for "issuerName" (failures_of m) = [])
  ∧ (∀ s, s ∈ [""; "Default"; "DEFAULT"; "default "] →
       failures_for "keyName" (failures_of (set "keyName" (JStr s) m)) = []
       ∧ ∀ a, a ∈ ["generate-root"; "rotate-root"] →
           failures_for "issuerName"
             (failures_of (set "actionType" (JStr a) (set "issuerName" (JStr s) m))) = []).
Proof.
  assert (Hk : ∀ r : PkiActionModel,
    get r "keyName" ≠ JStr "default" → failures_for "keyName" (failures_of r) = []).
  { intros r H. rewrite failures_for_keyName. unfold keyName_reserved.
    apply strict_eq_false in H. by rewrite H. }
  assert (Hi : ∀ r : PkiActionModel,
    get r "issuerName" ≠ JStr "default" →
    failures_for "issuerName" (failures_of r) = []).
  { intros r H. rewrite failures_for_issuerName. unfold issuerName_reserved.
    apply strict_eq_false in H. rewrite H. by rewrite andb_false_r. }
  split; [apply Hk |]. split; [apply Hi |]. repeat split.
  - intros H. apply Hk. by rewrite get_unset.
  - intros H. apply Hi. by rewrite get_unset.
  - apply Hk. rewrite get_set_eq by discriminate.
    rewrite !elem_of_cons, elem_of_nil in H.
    destruct H as [-> | [-> | [-> | [-> | []]]]]; discriminate.
  - intros a _. apply Hi. rewrite get_set_ne, get_set_eq by discriminate.
    rewrite !elem_of_cons, elem_of_nil in H.
    destruct H as [-> | [-> | [-> | [-> | []]]]]; discriminate.
Qed.

Lemma reserved_value_exact_witness :
  failures_for "keyName"
    (failures_of (set "keyName" (JStr "Default")
                    (set "actionType" (JStr "generate-root") fresh))) = [].
Proof.
  apply (proj1 (reserved_value_exact
                  (set "keyName" (JStr "Default")
                     (set "actionType" (JStr "generate-root") fresh)))).
  vm_compute. discriminate.
Defined.

(** ** Defaults *)

(** C5. While nothing has been assigned to them, the attributes read as their
    declared defaults: format "pem", privateKeyFormat "der", keyType "rsa",
    keyBits "0", maxPathLength -1, excludeCnFromSans false, notBeforeDuration
    "30s", keyRef "default". *)
Theorem declared_defaults (m : PkiActionModel) :
  (props m !! "format" = None → get m "format" = JStr "pem")
  ∧ (props m !! "privateKeyFormat" = None → get m "privateKeyFormat" = JStr "der")
  ∧ (props m !! "keyType" = None → get m "keyType" = JStr "rsa")
  ∧ (props m !! "keyBits" = None → get m "keyBits" = JStr "0")
  ∧ (props m !! "maxPathLength" = None → get m "maxPathLength" = JNum (-1))
  ∧ (props m !! "excludeCnFromSans" = None → get m "excludeCnFromSans" = JBool false)
  ∧ (props m !! "notBeforeDuration" = None → get m "notBeforeDuration" = JStr "30s")
  ∧ (props m !! "keyRef" = None → get m "keyRef" = JStr "default").
Proof.
  repeat split; intros H; rewrite get_unset by (discriminate || exact H);
    reflexivity.
Qed.

Lemma declared_defaults_witness :
  get fresh "format" = JStr "pem"
  ∧ get fresh "privateKeyFormat" = JStr "der"
  ∧ get fresh "keyType" = JStr "rsa"
  ∧ get fresh "keyBits" = JStr "0"
  ∧ get fresh "maxPathLength" = JNum (-1)
  ∧ get fresh "excludeCnFromSans" = JBool false
  ∧ get fresh "notBeforeDuration" = JStr "30s"
  ∧ get fresh "keyRef" = JStr "default".
Proof.
  destruct (declared_defaults fresh) as (H1 & H2 & H3 & H4 & H5 & H6 & H7 & H8).
  exact (conj (H1 eq_refl) (conj (H2 eq_refl) (conj (H3 eq_refl) (conj (H4 eq_refl)
           (conj (H5 eq_refl) (conj (H6 eq_refl) (conj (H7 eq_refl) (H8 eq_refl)))))))).
Defined.

(** C6, as the specification words it, fails: a freshly created record with
    addBasicConstraints unassigned does not read it as [false]. *)
Lemma addBasicConstraints_default_not_false :
  props fresh !! "addBasicConstraints" = None
  ∧ get fresh "addBasicConstraints" = JUndefined
  ∧ ¬ (∀ m : PkiActionModel,
         props m !! "addBasicConstraints" = None →
         get m "addBasicConstraints" = JBool false).
Proof.
  split; [reflexivity |]. split; [reflexivity |].
  intros H. specialize (H fresh eq_refl). discriminate H.
Qed.

(** C6, amended. addBasicConstraints is declared with the boolean transform
    and without a default: while nothing has been assigned to it, it reads as
    [undefined]. *)
Theorem addBasicConstraints_unset (m : PkiActionModel) :
  props m !! "addBasicConstraints" = None →
  attr_options "addBasicConstraints" = Some (mkAttr (Some "boolean") None [])
  ∧ get m "addBasicConstraints" = JUndefined.
Proof.
  intros H. split; [reflexivity |].
  rewrite get_unset by (discriminate || exact H). reflexivity.
Qed.

Lemma addBasicConstraints_unset_witness :
  attr_options "addBasicConstraints" = Some (mkAttr (Some "boolean") None [])
  ∧ get fresh "addBasicConstraints" = JUndefined.
Proof. apply (addBasicConstraints_unset fresh). reflexivity. Defined.

(** ** Capability flags *)

Lemma canCreate_flag (c : Capabilities) :
  strict_eq (proxy_get c "canCreate") (JBool true) = true ↔ reports_canCreate c.
Proof.
  rewrite strict_eq_true. unfold reports_canCreate, proxy_get. split.
  - destruct c as [record | |]; try discriminate.
    destruct (record !! "canCreate") as [v |] eqn:Hv; cbn; [| discriminate].
    intros ->. by exists record.
  - intros (record & -> & ->). reflexivity.
Qed.

Lemma canCreate_flag_unresolved (c : Capabilities) :
  c = Pending ∨ c = Rejected →
  strict_eq (proxy_get c "canCreate") (JBool true) = false.
Proof. intros [-> | ->]; reflexivity. Qed.

(** C3. Each capability flag is true exactly when the oracle's answer for
    its path reports canCreate strictly equal to true; any other answer,
    pending and failed lookups included, gives false.  The getters are total:
    they return a boolean on every record and every oracle. *)
Theorem capability_flags (m : PkiActionModel) :
  (canImportBundle m = true ↔ reports_canCreate (importBundlePath m))
  ∧ (canGenerateIssuerRoot m = true ↔ reports_canCreate (generateIssuerRootPath m))
  ∧ (canGenerateIssuerIntermediate m = true ↔
     reports_canCreate (generateIssuerCsrPath m))
  ∧ (canCrossSign m = true ↔ reports_canCreate (crossSignPath m))
  ∧ (¬ reports_canCreate (importBundlePath m) → canImportBundle m = false)
  ∧ (¬ reports_canCreate (generateIssuerRootPath m) → canGenerateIssuerRoot m = false)
  ∧ (¬ reports_canCreate (generateIssuerCsrPath m) →
     canGenerateIssuerIntermediate m = false)
  ∧ (¬ reports_canCreate (crossSignPath m) → canCrossSign m = false)
  ∧ (importBundlePath m = Pending ∨ importBundlePath m = Rejected →
     canImportBundle m = false)
  ∧ (generateIssuerRootPath m = Pending ∨ generateIssuerRootPath m = Rejected →
     canGenerateIssuerRoot m = false)
  ∧ (generateIssuerCsrPath m = Pending ∨ generateIssuerCsrPath m = Rejected →
     canGenerateIssuerIntermediate m = false)
  ∧ (crossSignPath m = Pending ∨ crossSignPath m = Rejected →
     canCrossSign m = false).
Proof.
  unfold canImportBundle, canGenerateIssuerRoot, canGenerateIssuerIntermediate,
    canCrossSign.
  repeat match goal with |- _ ∧ _ => split end;
    try apply canCreate_flag; try apply canCreate_flag_unresolved;
    intros H; apply not_true_is_false; by rewrite canCreate_flag.
Qed.

Lemma capability_flags_witness :
  canImportBundle (createRecord (JStr "pki") bundle_only) = true
  ∧ canGenerateIssuerRoot (createRecord (JStr "pki") bundle_only) = false
  ∧ canGenerateIssuerIntermediate (createRecord (JStr "pki") bundle_only) = false
  ∧ canCrossSign (createRecord (JStr "pki") bundle_only) = false.
Proof.
  destruct (capability_flags (createRecord (JStr "pki") bundle_only))
    as (H1 & _ & _ & _ & _ & _ & _ & _ & _ & H2 & H3 & H4).
  refine (conj (proj2 H1 _) (conj (H2 _) (conj (H3 _) (H4 _)))).
  - exists {[ "canCreate" := JBool true ]}. split; reflexivity.
  - right. reflexivity.
  - right. reflexivity.
  - right. reflexivity.
Defined.

(** * Further properties of the model *)

(** ** The validators of the table *)

(** X1. The issuerName validator hands the record back untouched, and
    rejects it exactly when actionType is 'generate-root' or 'rotate-root'
    and issuerName is the string "default". *)
Theorem issuerName_validator_spec (m : PkiActionModel) :
  (issuerName_validator m).2 = m
  ∧ ((issuerName_validator m).1 = false ↔
     (get m "actionType" = JStr "generate-root"
      ∨ get m "actionType" = JStr "rotate-root")
     ∧ get m "issuerName" = JStr "default").
Proof.
  rewrite issuerName_validator_run; cbn [fst snd]. split; [reflexivity |].
  rewrite negb_false_iff. apply issuerName_reserved_true.
Qed.

(** X2. The keyName validator hands the record back untouched, rejects it
    exactly when keyName is the string "default", and gives the same verdict
    whatever is assigned to any other property. *)
Theorem keyName_validator_spec (m : PkiActionModel) :
  (keyName_validator m).2 = m
  ∧ ((keyName_validator m).1 = false ↔ get m "keyName" = JStr "default")
  ∧ (∀ key v, key ≠ "keyName" →
       (keyName_validator (set key v m)).1 = (keyName_validator m).1).
Proof.
  rewrite keyName_validator_run; cbn [fst snd]. split; [reflexivity |]. split.
  - rewrite negb_false_iff. apply keyName_reserved_true.
  - intros key v Hkey. rewrite keyName_validator_run; cbn [fst].
    unfold keyName_reserved. by rewrite get_set_ne.
Qed.

Lemma keyName_validator_spec_witness :
  (keyName_validator (set "actionType" (JStr "rotate-root") fresh)).1
  = (keyName_validator fresh).1.
Proof.
  apply (proj2 (proj2 (keyName_validator_spec fresh))). discriminate.
Defined.

(** ** The evaluator on the table *)

Lemma validate_eq (m : PkiActionModel) :
  validate m =
    (mkOutcome
       (presence (get m "type") && presence (get m "commonName")
        && negb (issuerName_reserved m) && negb (keyName_reserved m))
       (when (negb (presence (get m "type"))) type_failure
        ++ when (negb (presence (get m "commonName"))) commonName_failure
        ++ when (issuerName_reserved m) issuerName_failure
        ++ when (keyName_reserved m) keyName_failure)%list,
     m).
Proof.
  unfold validate, validations.
  cbn [run_table run_rules run_rule check]. unfold bind, read, ret.
  rewrite issuerName_validator_run. cbn beta iota.
  rewrite keyName_validator_run. cbn beta iota.
  destruct (presence (get m "type")), (presence (get m "commonName")),
    (issuerName_reserved m), (keyName_reserved m); reflexivity.
Qed.

(** X3. The failures come in the order of the table, at most one per field,
    each with the message the table gives for its field. *)
Theorem failures_in_table_order (m : PkiActionModel) :
  failures_of m `sublist_of`
    [ mkFailure "type" MissingRequiredField "Type is required.";
      mkFailure "commonName" MissingRequiredField "Common name is required.";
      mkFailure "issuerName" ReservedValue
        "Issuer name must be unique across all issuers and not be the reserved value 'default'.";
      mkFailure "keyName" ReservedValue
        "Key name cannot be the reserved value 'default'" ].
Proof.
  rewrite failures_of_eq.
  destruct (presence (get m "type")), (presence (get m "commonName")),
    (issuerName_reserved m), (keyName_reserved m); cbn [negb when app];
    repeat first [ apply sublist_nil_l | apply sublist_skip | apply sublist_cons ].
Qed.

(** X4. A record is valid exactly when type and commonName are present,
    keyName is not "default", and issuerName is not "default" under a
    'generate-root' or 'rotate-root' action. *)
Theorem valid_iff (m : PkiActionModel) :
  isValid (validate m).1 = true ↔
    ¬ absent_or_empty (get m "type")
    ∧ ¬ absent_or_empty (get m "commonName")
    ∧ get m "keyName" ≠ JStr "default"
    ∧ ¬ ((get m "actionType" = JStr "generate-root"
          ∨ get m "actionType" = JStr "rotate-root")
         ∧ get m "issuerName" = JStr "default").
Proof.
  rewrite validate_eq; cbn [fst isValid].
  rewrite !andb_true_iff, !negb_true_iff.
  rewrite <- !presence_false, <- issuerName_reserved_true, <- keyName_reserved_true.
  rewrite !not_false_iff_true, !not_true_iff_false. tauto.
Qed.

(** X5. The outcome depends on the record only through type, commonName,
    issuerName, keyName and actionType: two records that read the same on
    these five validate alike, whatever their mount path, oracle and other
    attributes. *)
Theorem validate_reads_five (m m' : PkiActionModel) :
  (∀ key, key ∈ validated_reads → get m key = get m' key) →
  (validate m).1 = (validate m').1.
Proof.
  intros H. rewrite !validate_eq; cbn [fst].
  unfold issuerName_reserved, keyName_reserved, validated_reads in *.
  rewrite (H "type"), (H "commonName"), (H "issuerName"), (H "keyName"),
    (H "actionType")
    by (rewrite !elem_of_cons; tauto).
  reflexivity.
Qed.

Lemma validate_reads_five_witness :
  (validate (set "format" (JStr "der") (createRecord (JStr "pki-int") bundle_only))).1
  = (validate fresh).1.
Proof.
  apply (validate_reads_five
           (set "format" (JStr "der") (createRecord (JStr "pki-int") bundle_only))
           fresh).
  intros key Hkey. unfold validated_reads in Hkey.
  rewrite !elem_of_cons, elem_of_nil in Hkey.
  destruct Hkey as [-> | [-> | [-> | [-> | [-> | []]]]]]; reflexivity.
Defined.

(** ** The capability getters *)




(** X7. The four flags are independent of one another: the four getters
    look up four different paths, so an oracle can grant any combination of
    them on any record. *)
Theorem capability_flags_independent (m : PkiActionModel)
    (bundle root intermediate cross : bool) :
  canImportBundle (with_oracle (granting bundle root intermediate cross) m) = bundle
  ∧ canGenerateIssuerRoot (with_oracle (granting bundle root intermediate cross) m) = root
  ∧ canGenerateIssuerIntermediate
      (with_oracle (granting bundle root intermediate cross) m) = intermediate
  ∧ canCrossSign (with_oracle (granting bundle root intermediate cross) m) = cross.
Proof.
  unfold canImportBundle, canCrossSign, canGenerateIssuerRoot,
    canGenerateIssuerIntermediate, importBundlePath, crossSignPath,
    generateIssuerRootPath, generateIssuerCsrPath, lazyCapabilities,
    with_oracle, granting.
  cbn [oracle].
  destruct bundle, root, intermediate, cross; repeat split; reflexivity.
Qed.




(** ** The attribute declarations *)

Lemma assoc_Some_elem {A : Type} (l : list (string * A)) (key : string) (a : A) :
  assoc key l = Some a → (key, a) ∈ l.
Proof.
  induction l as [| [k b] rest IH]; cbn [assoc]; [discriminate |].
  destruct (String.eqb_spec k key) as [-> | Hne].
  - intros [= ->]. apply list_elem_of_here.
  - intros H. apply list_elem_of_further, IH, H.
Qed.

Lemma elem_assoc_Some {A : Type} (l : list (string * A)) (key : string) (a : A) :
  NoDup l.*1 → (key, a) ∈ l → assoc key l = Some a.
Proof.
  induction l as [| [k b] rest IH]; cbn [assoc]; intros Hnd Hin.
  - by apply elem_of_nil in Hin.
  - rewrite fmap_cons in Hnd. apply NoDup_cons in Hnd as [Hk Hnd].
    apply elem_of_cons in Hin as [[= <- <-] | Hin].
    + by rewrite String.eqb_refl.
    + destruct (String.eqb_spec k key) as [-> | Hne]; [| by apply IH].
      exfalso. apply Hk. apply list_elem_of_fmap. by exists (key, a).
Qed.

Lemma attributes_NoDup : NoDup attributes.*1.
Proof. apply (bool_decide_unpack _). vm_compute. exact I. Qed.

(** X9. No attribute is declared twice, so the options an attribute name
    resolves to are those of its one declaration. *)
Theorem attr_options_declared (key : string) (o : AttrOptions) :
  NoDup attributes.*1
  ∧ (attr_options key = Some o ↔ (key, o) ∈ attributes).
Proof.
  split; [exact attributes_NoDup |]. unfold attr_options. split.
  - apply assoc_Some_elem.
  - apply elem_assoc_Some, attributes_NoDup.
Qed.




Ltac each_attribute :=
  unfold attributes, plain;
  repeat (apply Forall_cons_2; [cbn |]); try apply Forall_nil_2.

(** X11. Every declared default has the type of its attribute's transform: a
    string for 'string', a number for 'number', a boolean for 'boolean'. *)
Theorem defaults_match_transform (key : string) (o : AttrOptions) (v : Value) :
  attr_options key = Some o →
  defaultValue o = Some v →
  (attr_type o = Some "string" → ∃ s, v = JStr s)
  ∧ (attr_type o = Some "number" → ∃ n, v = JNum n)
  ∧ (attr_type o = Some "boolean" → ∃ b, v = JBool b).
Proof.
  intros Hkey. apply assoc_Some_elem in Hkey. revert v.
  assert (Hall : Forall (fun entry : string * AttrOptions =>
    ∀ v, defaultValue entry.2 = Some v →
      (attr_type entry.2 = Some "string" → ∃ s, v = JStr s)
      ∧ (attr_type entry.2 = Some "number" → ∃ n, v = JNum n)
      ∧ (attr_type entry.2 = Some "boolean" → ∃ b, v = JBool b)) attributes).
  { each_attribute; intros v Hv; try discriminate Hv;
      injection Hv as <-; repeat split; intros Ht; try discriminate Ht; eauto. }
  rewrite Forall_forall in Hall. exact (Hall (key, o) Hkey).
Qed.

Lemma defaults_match_transform_witness :
  (Some "number" = Some "string" → ∃ s, JNum (-1) = JStr s)
  ∧ (Some "number" = Some "number" → ∃ n, JNum (-1) = JNum n)
  ∧ (Some "number" = Some "boolean" → ∃ b, JNum (-1) = JBool b).
Proof.
  apply (defaults_match_transform "maxPathLength"
           (mkAttr (Some "number") (Some (JNum (-1))) []) (JNum (-1)));
    reflexivity.
Defined.

(** X12. Where an attribute declares its possible values, its declared
    default is one of them. *)
Theorem defaults_among_possibleValues (key : string) (o : AttrOptions) (v : Value) :
  attr_options key = Some o →
  defaultValue o = Some v →
  possibleValues o ≠ [] →
  ∃ s, v = JStr s ∧ s ∈ possibleValues o.
Proof.
  intros Hkey. apply assoc_Some_elem in Hkey. revert v.
  assert (Hall : Forall (fun entry : string * AttrOptions =>
    ∀ v, defaultValue entry.2 = Some v → possibleValues entry.2 ≠ [] →
      ∃ s, v = JStr s ∧ s ∈ possibleValues entry.2) attributes).
  { each_attribute; intros v Hv Hpv; try discriminate Hv; try (by destruct Hpv);
      injection Hv as <-; eexists; (split; [reflexivity |]);
      rewrite !elem_of_cons; tauto. }
  rewrite Forall_forall in Hall. exact (Hall (key, o) Hkey).
Qed.

Lemma defaults_among_possibleValues_witness :
  ∃ s, JStr "der" = JStr s ∧ s ∈ ["der"; "pkcs8"].
Proof.
  apply (defaults_among_possibleValues "privateKeyFormat"
           (mkAttr (Some "string") (Some (JStr "der")) ["der"; "pkcs8"]) (JStr "der"));
    [reflexivity | reflexivity | discriminate].
Defined.

(** X13. Every field the [validations] table names is a declared attribute
    with the 'string' transform and no default, and no field is named
    twice. *)
Theorem validated_fields_declared (key : string) (rules : list Rule) :
  (key, rules) ∈ validations →
  NoDup validations.*1
  ∧ ∃ o, attr_options key = Some o
         ∧ attr_type o = Some "string" ∧ defaultValue o = None.
Proof.
  intros Hin. split.
  - apply (bool_decide_unpack _). vm_compute. exact I.
  - unfold validations in Hin. rewrite !elem_of_cons, elem_of_nil in Hin.
    destruct Hin as [[= -> _] | [[= -> _] | [[= -> _] | [[= -> _] | []]]]];
      eexists; (split; [reflexivity |]); split; reflexivity.
Qed.

Lemma validated_fields_declared_witness :
  NoDup validations.*1
  ∧ ∃ o, attr_options "commonName" = Some o
         ∧ attr_type o = Some "string" ∧ defaultValue o = None.
Proof.
  apply (validated_fields_declared "commonName"
           [mkRule Presence "Common name is required."]).
  unfold validations. apply list_elem_of_further, list_elem_of_here.
Defined.
